(** * RockheadSnapOps: the circumcenter and look-at-cursor operators

    A shallow embedding of [RockheadSnapOps.py].  Python exceptions are the
    [Raise] outcomes of a small error monad; the scene the operators mutate
    is an explicit state.

    Coordinates are exact rationals ([Q], compared with [==]): the two
    circumcenter functions are embedded with the arithmetic the code writes
    down, without its rounding.  The code itself computes on binary32
    vectors with double precision scalars, so what depends on the value of
    a rounded sum (whether the weight sum is zero, whether a divisor is)
    can differ from the exact reading.  What the operators do with the
    answers of the two functions is stated for whatever they return
    ([execute_with]), and the binary32 system of the four point function
    is embedded as such beside the exact one. *)

From Stdlib Require Import QArith Qfield Lqa Lia Arith List String Bool Permutation.
From Stdlib Require SpecFloat.
Import ListNotations.
Local Open Scope Q_scope.

(** ** Python outcomes *)

Module Py.

(** The exceptions that can arise in the add-on's code paths. *)
Inductive exn : Set :=
| NameError
| UnboundLocalError
| AttributeError
| IndexError
| TypeError
| ValueError
| ZeroDivisionError
| LinAlgError.

Inductive result (A : Type) : Type :=
| Ret (a : A)
| Raise (e : exn).
Arguments Ret {A} a.
Arguments Raise {A} e.

Definition bind {A B : Type} (m : result A) (k : A -> result B) : result B :=
  match m with
  | Ret a => k a
  | Raise e => Raise e
  end.

(** The names bound at module level once the file has been imported:
    the imports, [bl_info] and the top-level [def]s and [class]es. *)
Definition module_globals : list string :=
  [ "bpy"; "bmesh"; "mathutils"; "Vector"; "Matrix"; "np"; "sss"; "bl_info";
    "calculate_circumcenter_3d"; "calculate_circumcenter_4d";
    "MoveToCircumcenterOperator"; "LookAtCursorOperator";
    "snap_menu_draw"; "register"; "unregister" ]%string.

(** Looking a free name up: a name that is neither local nor bound in the
    module (nor a builtin, and [report] is none) raises [NameError]. *)
Definition load_global (name : string) : result unit :=
  if existsb (String.eqb name) module_globals then Ret tt else Raise NameError.

End Py.
Import Py.

Notation "x <- m ;; k" := (bind m (fun x => k))
  (at level 61, m at next level, right associativity).
Notation "m ;;; k" := (bind m (fun _ => k))
  (at level 61, right associativity).

(** ** mathutils.Vector over exact rationals *)

Record Vector : Set := Vec { vx : Q; vy : Q; vz : Q }.

Definition veq (p q : Vector) : Prop :=
  vx p == vx q /\ vy p == vy q /\ vz p == vz q.
Infix "=v=" := veq (at level 70, no associativity).

Definition vzero : Vector := Vec 0 0 0.
Definition vadd (p q : Vector) : Vector :=
  Vec (vx p + vx q) (vy p + vy q) (vz p + vz q).
Definition vsub (p q : Vector) : Vector :=
  Vec (vx p - vx q) (vy p - vy q) (vz p - vz q).
Definition vneg (p : Vector) : Vector := Vec (- vx p) (- vy p) (- vz p).
(** [k * p] *)
Definition smul (k : Q) (p : Vector) : Vector :=
  Vec (k * vx p) (k * vy p) (k * vz p).
(** [p.dot(q)] *)
Definition dot (p q : Vector) : Q := vx p * vx q + vy p * vy q + vz p * vz q.
(** [p.length_squared] *)
Definition length_squared (p : Vector) : Q := dot p p.
(** [p / k]: mathutils raises [ZeroDivisionError] on a zero divisor.  This
    is the exact reading; in the code the divisor counts as zero as soon as
    it is zero as a binary32 number. *)
Definition vdiv (p : Vector) (k : Q) : result Vector :=
  if Qeq_bool k 0 then Raise ZeroDivisionError
  else Ret (Vec (vx p / k) (vy p / k) (vz p / k)).

(** All three components are zero. *)
Definition is_zero (p : Vector) : bool :=
  Qeq_bool (vx p) 0 && Qeq_bool (vy p) 0 && Qeq_bool (vz p) 0.

Definition cross (p q : Vector) : Vector :=
  Vec (vy p * vz q - vz p * vy q)
      (vz p * vx q - vx p * vz q)
      (vx p * vy q - vy p * vx q).

(** Squared distance; the code reports [(c - p).length], its square root. *)
Definition dist2 (c p : Vector) : Q := length_squared (vsub c p).

(** ** calculate_circumcenter_3d *)

Definition barycentric_to_world (p1 p2 p3 : Vector) (u v w : Q) : result Vector :=
  vdiv (vadd (vadd (smul u p1) (smul v p2)) (smul w p3)) (u + v + w).

(** The weights of lines 25-31, read exactly; the code computes them in
    double precision from binary32 edge vectors. *)
Definition weights_3d (p1 p2 p3 : Vector) : Q * Q * Q :=
  let a := vsub p3 p2 in
  let b := vsub p1 p3 in
  let c := vsub p2 p1 in
  (length_squared a * dot b c,
   length_squared b * dot c a,
   length_squared c * dot b a).

Definition calculate_circumcenter_3d (p1 p2 p3 : Vector) : result (option Vector) :=
  let '(u, v, w) := weights_3d p1 p2 p3 in
  if Qeq_bool (u + v + w) 0 then
    (* report({'WARNING'}, ...): [report] is a free name of the function *)
    load_global "report" ;;;
    mean <- vdiv (vadd (vadd p1 p2) p3) 3 ;;
    Ret (Some mean)
  else
    match barycentric_to_world p1 p2 p3 u v w with
    | Ret center => Ret (Some center)
    | Raise ZeroDivisionError => Ret None
    | Raise ValueError => Ret None
    | Raise e => Raise e
    end.

(** The numerator and the denominator of the barycentric combination. *)
Definition numerator_3d (p1 p2 p3 : Vector) : Vector :=
  let '(u, v, w) := weights_3d p1 p2 p3 in
  vadd (vadd (smul u p1) (smul v p2)) (smul w p3).

Definition weight_sum (p1 p2 p3 : Vector) : Q :=
  let '(u, v, w) := weights_3d p1 p2 p3 in u + v + w.

(** Three points are collinear when the cross product of two edge vectors
    vanishes. *)
Definition collinear (p1 p2 p3 : Vector) : Prop :=
  cross (vsub p2 p1) (vsub p3 p1) =v= vzero.

(** The barycentric combination as the specification words it. *)
Definition barycentric_combination (p1 p2 p3 : Vector) : Vector :=
  let u := length_squared (vsub p3 p2) * dot (vsub p1 p3) (vsub p2 p1) in
  let v := length_squared (vsub p1 p3) * dot (vsub p2 p1) (vsub p3 p2) in
  let w := length_squared (vsub p2 p1) * dot (vsub p1 p3) (vsub p3 p2) in
  let s := u + v + w in
  Vec ((u * vx p1 + v * vx p2 + w * vx p3) / s)
      ((u * vy p1 + v * vy p2 + w * vy p3) / s)
      ((u * vz p1 + v * vz p2 + w * vz p3) / s).

(** [c] is at the same distance from every point of [ps]. *)
Definition equidistant (c : Vector) (ps : list Vector) : Prop :=
  forall p q, In p ps -> In q ps -> dist2 c p == dist2 c q.

(** ** numpy.linalg.solve on a 3x3 system

    The matrix is given by its rows.  NumPy is not part of the repository:
    [solve] is taken by its contract, the unique solution of [M x = rhs]
    (written with the adjugate of [M]) and [LinAlgError] on a singular
    matrix.  This is the exact reading: LAPACK eliminates in floating point,
    reports a singular matrix only when it meets a pivot that is exactly
    zero, and returns a rounded solution otherwise. *)

Module np.

Definition Matrix3 : Set := (Vector * Vector * Vector)%type.

Definition det (M : Matrix3) : Q :=
  let '(r1, r2, r3) := M in dot r1 (cross r2 r3).

Definition linalg_solve (M : Matrix3) (rhs : Vector) : result Vector :=
  let '(r1, r2, r3) := M in
  let adj := vadd (vadd (smul (vx rhs) (cross r2 r3))
                        (smul (vy rhs) (cross r3 r1)))
                  (smul (vz rhs) (cross r1 r2)) in
  match vdiv adj (det M) with
  | Raise ZeroDivisionError => Raise LinAlgError
  | other => other
  end.

End np.

(** ** calculate_circumcenter_4d *)

Definition system_matrix (A B C D : Vector) : np.Matrix3 :=
  (Vec (2 * (vx B - vx A)) (2 * (vy B - vy A)) (2 * (vz B - vz A)),
   Vec (2 * (vx C - vx B)) (2 * (vy C - vy B)) (2 * (vz C - vz B)),
   Vec (2 * (vx D - vx C)) (2 * (vy D - vy C)) (2 * (vz D - vz C))).

(** The right-hand side read exactly; [right_hand_side_float32] below is
    its evaluation on binary32 arrays. *)
Definition right_hand_side (A B C D : Vector) : Vector :=
  Vec (vx B ^ 2 + vy B ^ 2 + vz B ^ 2 - vx A ^ 2 - vy A ^ 2 - vz A ^ 2)
      (vx C ^ 2 + vy C ^ 2 + vz C ^ 2 - vx B ^ 2 - vy B ^ 2 - vz B ^ 2)
      (vx D ^ 2 + vy D ^ 2 + vz D ^ 2 - vx C ^ 2 - vy C ^ 2 - vz C ^ 2).

Definition calculate_circumcenter_4d (A B C D : Vector) : result (option Vector) :=
  let M := system_matrix A B C D in
  let RHS := right_hand_side A B C D in
  match np.linalg_solve M RHS with
  | Ret center => Ret (Some center)
  | Raise LinAlgError => Ret None
  | Raise e => Raise e
  end.

(** Four points are coplanar when the triple product of the three edge
    vectors out of the first one vanishes. *)
Definition coplanar (A B C D : Vector) : Prop :=
  dot (vsub B A) (cross (vsub C A) (vsub D A)) == 0.

(** ** The four point system on binary32 arrays

    NumPy is not part of the repository.  [np.array] of a mathutils vector
    is an array of IEEE binary32 numbers, and arithmetic on such arrays
    rounds every result to binary32, to nearest and ties to even: the
    standard library's [spec_float] operations at precision 24. *)

Module float32.

Definition t : Set := SpecFloat.spec_float.
Definition prec : Z := 24%Z.
Definition emax : Z := 128%Z.



End float32.






(** ** The host's scene, as far as the two operators read and write it *)

Inductive Axis : Set := X | Y | Z.

(** What the host computes with square roots and trigonometry stays a term:
    [normalized v] is [v] after [v.normalize()], [track_quat d t u] is
    [d.to_track_quat(t, u)] and [to_euler q] is [q.to_euler()]. *)
Inductive Direction : Set := normalized (v : Vector).
Inductive Quaternion : Set := track_quat (d : Direction) (track up : Axis).
Inductive Euler : Set :=
| euler_xyz (x y z : Q)
| to_euler (q : Quaternion).

(** A 4x4 [mathutils.Matrix], by rows. *)
Record Row4 : Set := { m0 : Q; m1 : Q; m2 : Q; m3 : Q }.
Record Matrix : Set := { row0 : Row4; row1 : Row4; row2 : Row4; row3 : Row4 }.

(** [M @ v] for a 4x4 matrix and a 3D vector: [v] is extended by 1 and the
    first three rows give the result. *)
Definition matmul (M : Matrix) (v : Vector) : Vector :=
  let apply r := m0 r * vx v + m1 r * vy v + m2 r * vz v + m3 r in
  Vec (apply (row0 M)) (apply (row1 M)) (apply (row2 M)).

Record BMVert : Set := { co : Vector; select : bool }.
Record PoseBone : Set := { head : Vector }.
(** A bone in edit mode has a head and a tail, and no [head_local]. *)
Record EditBone : Set := { bone_head : Vector; bone_tail : Vector }.

(** [obj.data]; the datablock fixes [obj.type]. *)
Inductive ObjectData : Set :=
| Mesh (verts : list BMVert)
| Armature
| OtherData.

Inductive ObjectType : Set := MESH | ARMATURE | OTHER_TYPE.
Inductive Mode : Set := EDIT | OBJECT | POSE | OTHER_MODE.

Record Object : Set := {
  data : ObjectData;
  mode : Mode;
  matrix_world : Matrix;
  location : Vector;
  rotation_euler : Euler
}.

Definition type (obj : Object) : ObjectType :=
  match data obj with
  | Mesh _ => MESH
  | Armature => ARMATURE
  | OtherData => OTHER_TYPE
  end.

Record Context : Set := {
  object : option Object;
  edit_object : option Object;
  selected_objects : list Object;
  selected_pose_bones : list PoseBone;
  selected_bones : list EditBone;
  cursor_location : Vector           (* context.scene.cursor.location *)
}.

Inductive Level : Set := INFO | WARNING | ERROR.

Inductive Message : Set :=
| Text (s : string)
  (** "Distance from circumcenter to point {}: {}" with [i] and the length
      of [v] *)
| Distance (i : nat) (v : Vector).

Record Report : Set := { level : Level; message : Message }.

Inductive Status : Set := FINISHED | CANCELLED.

(** The state an operator runs in: the context it was handed and the
    messages it has reported so far. *)
Record World : Set := { context : Context; log : list Report }.

(** ** Operators: state that survives an exception *)

Definition Op (A : Type) : Type := World -> result A * World.

Definition op_ret {A : Type} (a : A) : Op A := fun w => (Ret a, w).

Definition op_bind {A B : Type} (m : Op A) (k : A -> Op B) : Op B :=
  fun w =>
    match m w with
    | (Ret a, w') => k a w'
    | (Raise e, w') => (Raise e, w')
    end.

Definition lift {A : Type} (r : result A) : Op A := fun w => (r, w).

Definition get_context : Op Context := fun w => (Ret (context w), w).

(** [self.report({lvl}, msg)] *)
Definition report (lvl : Level) (msg : Message) : Op unit :=
  fun w => (Ret tt, {| context := context w;
                       log := log w ++ [{| level := lvl; message := msg |}] |}).

Definition with_cursor (c : Context) (v : Vector) : Context :=
  {| object := object c; edit_object := edit_object c;
     selected_objects := selected_objects c;
     selected_pose_bones := selected_pose_bones c;
     selected_bones := selected_bones c;
     cursor_location := v |}.

Definition with_selected_objects (c : Context) (objs : list Object) : Context :=
  {| object := object c; edit_object := edit_object c;
     selected_objects := objs;
     selected_pose_bones := selected_pose_bones c;
     selected_bones := selected_bones c;
     cursor_location := cursor_location c |}.

(** [context.scene.cursor.location = v] *)
Definition set_cursor_location (v : Vector) : Op unit :=
  fun w => (Ret tt, {| context := with_cursor (context w) v; log := log w |}).

Notation "x <~ m ;; k" := (op_bind m (fun x => k))
  (at level 61, m at next level, right associativity).
Notation "m ;;~ k" := (op_bind m (fun _ => k))
  (at level 61, right associativity).

(** [for x in xs: body(x)] with a body that neither breaks nor returns. *)
Fixpoint op_for {A : Type} (xs : list A) (body : A -> Op unit) : Op unit :=
  match xs with
  | [] => op_ret tt
  | x :: rest => body x ;;~ op_for rest body
  end.

(** ** bmesh *)

Module bmesh.

(** [bmesh.from_edit_mesh(me)] wants a [Mesh] datablock and raises
    [TypeError] on any other; both call sites reach it in edit mode only,
    where the mesh has its edit data. *)
Definition from_edit_mesh (me : ObjectData) : result (list BMVert) :=
  match me with
  | Mesh verts => Ret verts
  | _ => Raise TypeError
  end.

End bmesh.

(** ** MoveToCircumcenterOperator *)

Module MoveToCircumcenterOperator.

(** [len(l) == 4 or len(l) == 3] *)
Definition four_or_three {A : Type} (l : list A) : bool :=
  Nat.eqb (List.length l) 4 || Nat.eqb (List.length l) 3.

Definition poll (context : Context) : result bool :=
  match object context with
  | None => Ret false
  | Some obj =>
    edit_hit <-
      match mode obj with
      | EDIT =>
        let me := data obj in
        bm <- bmesh.from_edit_mesh me ;;
        let selected_verts := filter select bm in
        Ret (four_or_three selected_verts)
      | _ => Ret false
      end ;;
    if edit_hit then Ret true
    else if match mode obj with
            | OBJECT => four_or_three (selected_objects context)
            | _ => false
            end
    then Ret true
    else
      match type obj with
      | ARMATURE =>
        if match mode obj with
           | POSE => four_or_three (selected_pose_bones context)
           | _ => false
           end
        then Ret true
        else if match mode obj with
                | EDIT => four_or_three (selected_bones context)
                | _ => false
                end
        then Ret true
        else Ret false
      | _ => Ret false
      end
  end.

(** The first half of [execute]: the world-space points of the selection. *)
Definition gather_points (context : Context) : result (list Vector) :=
  match object context with
  | None => Raise AttributeError
  | Some obj0 =>
    r <-
      match type obj0, mode obj0 with
      | MESH, EDIT =>
        match edit_object context with
        | None => Raise AttributeError
        | Some obj =>
          let me := data obj in
          bm <- bmesh.from_edit_mesh me ;;
          Ret (obj, map (fun v => matmul (matrix_world obj) (co v))
                        (filter select bm))
        end
      | _, _ => Ret (obj0, [])
      end ;;
    let '(obj, p) := r in
    let p :=
      match mode obj with
      | OBJECT => map location (selected_objects context)
      | _ => p
      end in
    match type obj with
    | ARMATURE =>
      let p :=
        match mode obj with
        | POSE => map (fun bone => matmul (matrix_world obj) (head bone))
                      (selected_pose_bones context)
        | _ => p
        end in
      match mode obj with
      | EDIT =>
        (* [bone.head_local]: the first selected edit bone has no such
           attribute *)
        match selected_bones context with
        | [] => Ret []
        | _ :: _ => Raise AttributeError
        end
      | _ => Ret p
      end
    | _ => Ret p
    end
  end.

Definition coplanar_warning : Message :=
  Text "The 4 points are coplanar. Using 3D circumcenter instead!".
Definition no_circumcenter_error : Message :=
  Text "Could not calculate circumcenter. Are the points colinear?".

(** The second half: [None] is the local [circumcenter] left unbound,
    [Some None] is [circumcenter is None]. *)
Definition solve (p : list Vector) : Op (option (option Vector)) :=
  match p with
  | [p0; p1; p2] =>
    circumcenter <~ lift (calculate_circumcenter_3d p0 p1 p2) ;;
    op_ret (Some circumcenter)
  | [p0; p1; p2; p3] =>
    circumcenter <~ lift (calculate_circumcenter_4d p0 p1 p2 p3) ;;
    match circumcenter with
    | None =>
      circumcenter <~ lift (calculate_circumcenter_3d p0 p1 p2) ;;
      match circumcenter with
      | Some _ => report WARNING coplanar_warning
      | None => op_ret tt
      end ;;~
      op_ret (Some circumcenter)
    | Some _ => op_ret (Some circumcenter)
    end
  | _ => op_ret None
  end.

Definition execute : Op Status :=
  context <~ get_context ;;
  p <~ lift (gather_points context) ;;
  bound <~ solve p ;;
  match bound with
  | None => lift (Raise UnboundLocalError)
  | Some None =>
    report ERROR no_circumcenter_error ;;~
    op_ret CANCELLED
  | Some (Some circumcenter) =>
    op_for (combine (seq 0 (List.length p)) p)
           (fun ip => report INFO (Distance (fst ip) (vsub circumcenter (snd ip)))) ;;~
    set_cursor_location circumcenter ;;~
    op_ret FINISHED
  end.

(** [solve] and [execute] with the two circumcenter functions as
    parameters: what the operator does with their answers does not depend
    on the arithmetic that computes them. *)
Section AnyCircumcenter.

Variable circumcenter_3d : Vector -> Vector -> Vector -> result (option Vector).
Variable circumcenter_4d :
  Vector -> Vector -> Vector -> Vector -> result (option Vector).

Definition solve_with (p : list Vector) : Op (option (option Vector)) :=
  match p with
  | [p0; p1; p2] =>
    circumcenter <~ lift (circumcenter_3d p0 p1 p2) ;;
    op_ret (Some circumcenter)
  | [p0; p1; p2; p3] =>
    circumcenter <~ lift (circumcenter_4d p0 p1 p2 p3) ;;
    match circumcenter with
    | None =>
      circumcenter <~ lift (circumcenter_3d p0 p1 p2) ;;
      match circumcenter with
      | Some _ => report WARNING coplanar_warning
      | None => op_ret tt
      end ;;~
      op_ret (Some circumcenter)
    | Some _ => op_ret (Some circumcenter)
    end
  | _ => op_ret None
  end.

Definition execute_with : Op Status :=
  context <~ get_context ;;
  p <~ lift (gather_points context) ;;
  bound <~ solve_with p ;;
  match bound with
  | None => lift (Raise UnboundLocalError)
  | Some None =>
    report ERROR no_circumcenter_error ;;~
    op_ret CANCELLED
  | Some (Some circumcenter) =>
    op_for (combine (seq 0 (List.length p)) p)
           (fun ip => report INFO (Distance (fst ip) (vsub circumcenter (snd ip)))) ;;~
    set_cursor_location circumcenter ;;~
    op_ret FINISHED
  end.

End AnyCircumcenter.

End MoveToCircumcenterOperator.

(** ** LookAtCursorOperator *)

Module LookAtCursorOperator.

(** The operator's properties, [self.axis] and [self.reverse]. *)
Record Props : Set := { axis : Axis; reverse : bool }.

Definition poll (context : Context) : bool :=
  Nat.ltb 0 (List.length (selected_objects context)).

Definition same_location_error : Message :=
  Text "Could not point object to cursor. Are the object and cursor in the same location?".

(** The direction before [normalize()]. *)
Definition look_direction (reverse : bool) (cursor_location obj_location : Vector)
  : Vector :=
  let direction := vsub cursor_location obj_location in
  if reverse then vsub obj_location cursor_location else direction.

(** The track and up axes handed to [to_track_quat]. *)
Definition track_axes (a : Axis) : Axis * Axis :=
  match a with
  | X => (X, Z)
  | Y => (Y, Z)
  | Z => (Z, Y)
  end.

Definition with_rotation_euler (obj : Object) (e : Euler) : Object :=
  {| data := data obj; mode := mode obj; matrix_world := matrix_world obj;
     location := location obj; rotation_euler := e |}.

Fixpoint update_nth {A : Type} (i : nat) (f : A -> A) (l : list A) : list A :=
  match l, i with
  | [], _ => []
  | x :: rest, O => f x :: rest
  | x :: rest, S j => x :: update_nth j f rest
  end.

(** [obj.rotation_euler = e] for the [i]th selected object. *)
Definition set_rotation_euler (i : nat) (e : Euler) : Op unit :=
  fun w =>
    let c := context w in
    (Ret tt,
     {| context :=
          with_selected_objects c
            (update_nth i (fun obj => with_rotation_euler obj e) (selected_objects c));
        log := log w |}).

Section Host.

(** mathutils is not part of the repository: the directions on which
    [to_track_quat] raises [ValueError] are a parameter. *)
Variable track_raises : Direction -> Axis -> Axis -> bool.

Definition to_track_quat (d : Direction) (track up : Axis) : result Quaternion :=
  if track_raises d track up then Raise ValueError
  else Ret (track_quat d track up).

(** One turn of the loop for the [i]th selected object; [Some s] is
    [return s] out of [execute]. *)
Definition body (self : Props) (cursor_location : Vector) (i : nat)
  : Op (option Status) :=
  context <~ get_context ;;
  match nth_error (selected_objects context) i with
  | None => lift (Raise IndexError)
  | Some obj =>
    let direction := look_direction (reverse self) cursor_location (location obj) in
    let direction := normalized direction in
    let '(track, up) := track_axes (axis self) in
    match to_track_quat direction track up with
    | Ret obj_rot =>
      set_rotation_euler i (to_euler obj_rot) ;;~
      op_ret None
    | Raise ValueError =>
      report ERROR same_location_error ;;~
      op_ret (Some CANCELLED)
    | Raise e => lift (Raise e)
    end
  end.

Fixpoint for_objects (self : Props) (cursor_location : Vector) (indices : list nat)
  : Op Status :=
  match indices with
  | [] => op_ret FINISHED
  | i :: rest =>
    returned <~ body self cursor_location i ;;
    match returned with
    | Some s => op_ret s
    | None => for_objects self cursor_location rest
    end
  end.

Definition execute (self : Props) : Op Status :=
  context <~ get_context ;;
  let cursor_location := cursor_location context in
  for_objects self cursor_location (seq 0 (List.length (selected_objects context))).

End Host.

(** mathutils itself: [to_track_quat] raises [ValueError] on an unknown
    axis name or on equal track and up axes, which [track_axes] never
    hands it.  On the zero direction it returns a quaternion like on any
    other. *)
Definition never_raises (d : Direction) (track up : Axis) : bool := false.

End LookAtCursorOperator.

(** ** Vocabulary of the statements *)

(** The center the barycentric branch returns, by components. *)
Definition center_3d (p1 p2 p3 : Vector) : Vector :=
  let n := numerator_3d p1 p2 p3 in
  let s := weight_sum p1 p2 p3 in
  Vec (vx n / s) (vy n / s) (vz n / s).

(** Two outcomes of a circumcenter function agree: the same exception, or
    points with equal coordinates. *)
Definition same_outcome (r1 r2 : result (option Vector)) : Prop :=
  match r1, r2 with
  | Ret (Some c1), Ret (Some c2) => c1 =v= c2
  | Ret None, Ret None => True
  | Raise e1, Raise e2 => e1 = e2
  | _, _ => False
  end.

(** The value of the fallback's [return] expression, [(p1 + p2 + p3) / 3]. *)
Definition arithmetic_mean (p1 p2 p3 : Vector) : Vector :=
  Vec ((vx p1 + vx p2 + vx p3) / 3)
      ((vy p1 + vy p2 + vy p3) / 3)
      ((vz p1 + vz p2 + vz p3) / 3).

(** The solution [np.linalg_solve] returns for a regular matrix. *)
Definition solution (M : np.Matrix3) (rhs : Vector) : Vector :=
  let '(r1, r2, r3) := M in
  let adj := vadd (vadd (smul (vx rhs) (cross r2 r3))
                        (smul (vy rhs) (cross r3 r1)))
                  (smul (vz rhs) (cross r1 r2)) in
  Vec (vx adj / np.det M) (vy adj / np.det M) (vz adj / np.det M).

(** The messages of the loop that closes [MoveToCircumcenterOperator.execute]. *)
Definition distance_reports (c : Vector) (p : list Vector) : list Report :=
  map (fun ip => {| level := INFO; message := Distance (fst ip) (vsub c (snd ip)) |})
      (combine (seq 0 (List.length p)) p).

(** The four selection contexts of the specification, read off the active
    object. *)
Inductive SelectionContext : Set := MeshEdit | ObjectMode | PoseBones | ArmatureEdit.

Definition in_selection_context (k : SelectionContext) (obj : Object) : Prop :=
  match k with
  | MeshEdit => type obj = MESH /\ mode obj = EDIT
  | ObjectMode => mode obj = OBJECT
  | PoseBones => type obj = ARMATURE /\ mode obj = POSE
  | ArmatureEdit => type obj = ARMATURE /\ mode obj = EDIT
  end.

(** The number of selected entities in a context. *)
Definition selected_count (k : SelectionContext) (c : Context) (obj : Object) : nat :=
  match k with
  | MeshEdit =>
    match data obj with
    | Mesh verts => List.length (filter select verts)
    | _ => 0
    end
  | ObjectMode => List.length (selected_objects c)
  | PoseBones => List.length (selected_pose_bones c)
  | ArmatureEdit => List.length (selected_bones c)
  end.

Module Orient.
Import LookAtCursorOperator.

(** The direction handed to [to_track_quat] for [obj]. *)
Definition aim (self : Props) (cursor : Vector) (obj : Object) : Direction :=
  normalized (look_direction (reverse self) cursor (location obj)).

(** [to_track_quat] raises on [obj]. *)
Definition fails (track_raises : Direction -> Axis -> Axis -> bool)
           (self : Props) (cursor : Vector) (obj : Object) : bool :=
  track_raises (aim self cursor obj)
               (fst (track_axes (axis self))) (snd (track_axes (axis self))).

(** [obj] with the rotation the loop body assigns. *)
Definition oriented (self : Props) (cursor : Vector) (obj : Object) : Object :=
  with_rotation_euler obj
    (to_euler (track_quat (aim self cursor obj)
                          (fst (track_axes (axis self)))
                          (snd (track_axes (axis self))))).

(** The loop as a function of the selection: rotate up to the first
    object that fails. *)
Fixpoint orient_until_failure (track_raises : Direction -> Axis -> Axis -> bool)
         (self : Props) (cursor : Vector) (objs : list Object)
  : Status * list Object :=
  match objs with
  | [] => (FINISHED, [])
  | obj :: rest =>
    if fails track_raises self cursor obj then (CANCELLED, obj :: rest)
    else
      let r := orient_until_failure track_raises self cursor rest in
      (fst r, oriented self cursor obj :: snd r)
  end.

Definition log_of (s : Status) : list Report :=
  match s with
  | FINISHED => []
  | CANCELLED => [{| level := ERROR; message := same_location_error |}]
  end.

(** The batch policy the specification words for one run: an object at
    the cursor is skipped with a report, every other selected object gets
    its rotation, and the run ends FINISHED as soon as one other object
    succeeded. *)
Definition skips_objects_at_cursor (self : Props) (w : World)
           (out : result Status * World) : Prop :=
  let cursor := cursor_location (context w) in
  let at_cursor obj := is_zero (vsub cursor (location obj)) in
  (forall i obj,
      nth_error (selected_objects (context w)) i = Some obj ->
      nth_error (selected_objects (context (snd out))) i =
      Some (if at_cursor obj then obj else oriented self cursor obj)) /\
  ((exists obj, In obj (selected_objects (context w)) /\ at_cursor obj = true) ->
   log (snd out) <> log w) /\
  ((exists obj, In obj (selected_objects (context w)) /\ at_cursor obj = false) ->
   fst out = Ret FINISHED).

End Orient.

(** The policy "a cancelled run leaves the scene untouched", for one run. *)
Definition cancelled_leaves_untouched (op : Op Status) (w : World) : Prop :=
  fst (op w) = Ret CANCELLED -> context (snd (op w)) = context w.

(** *** Sample scenes *)

Definition identity_matrix : Matrix :=
  {| row0 := {| m0 := 1; m1 := 0; m2 := 0; m3 := 0 |};
     row1 := {| m0 := 0; m1 := 1; m2 := 0; m3 := 0 |};
     row2 := {| m0 := 0; m1 := 0; m2 := 1; m3 := 0 |};
     row3 := {| m0 := 0; m1 := 0; m2 := 0; m3 := 1 |} |}.

(** An empty (an object without mesh or armature data) in object mode. *)
Definition empty_at (loc : Vector) : Object :=
  {| data := OtherData; mode := OBJECT; matrix_world := identity_matrix;
     location := loc; rotation_euler := euler_xyz 0 0 0 |}.

(** Object mode with the empties at [locs] selected, the first one active,
    and the cursor at the origin. *)
Definition object_mode_scene (locs : list Vector) : World :=
  {| context :=
       {| object := List.head (map empty_at locs); edit_object := None;
          selected_objects := map empty_at locs;
          selected_pose_bones := []; selected_bones := [];
          cursor_location := vzero |};
     log := [] |}.

(** An armature in edit mode with three bones selected. *)
Definition armature_edit_scene : World :=
  let arm := {| data := Armature; mode := EDIT; matrix_world := identity_matrix;
                location := vzero; rotation_euler := euler_xyz 0 0 0 |} in
  {| context :=
       {| object := Some arm; edit_object := Some arm;
          selected_objects := [arm];
          selected_pose_bones := [];
          selected_bones := [ {| bone_head := Vec 0 0 0; bone_tail := Vec 0 0 1 |};
                              {| bone_head := Vec 1 0 0; bone_tail := Vec 1 0 1 |};
                              {| bone_head := Vec 0 1 0; bone_tail := Vec 0 1 1 |} ];
          cursor_location := vzero |};
     log := [] |}.

(** Three selected empties, the second one at the cursor. *)
Definition three_objects_scene : World :=
  object_mode_scene [Vec 1 0 0; Vec 0 0 0; Vec 0 1 0].

Definition default_props : LookAtCursorOperator.Props :=
  {| LookAtCursorOperator.axis := Z; LookAtCursorOperator.reverse := false |}.

(** *** Further vocabulary *)

(** Two objects differ in their rotation at most. *)
Definition same_but_rotation (o o' : Object) : Prop :=
  data o' = data o /\ mode o' = mode o /\
  matrix_world o' = matrix_world o /\ location o' = location o.

(** A mesh in edit mode, three of its four vertices selected. *)
Definition mesh_edit_scene : World :=
  let mesh :=
      {| data := Mesh [ {| co := Vec 0 0 0; select := true |};
                        {| co := Vec 2 0 0; select := true |};
                        {| co := Vec 5 5 5; select := false |};
                        {| co := Vec 0 2 0; select := true |} ];
         mode := EDIT; matrix_world := identity_matrix;
         location := vzero; rotation_euler := euler_xyz 0 0 0 |} in
  {| context :=
       {| object := Some mesh; edit_object := Some mesh;
          selected_objects := [mesh];
          selected_pose_bones := []; selected_bones := [];
          cursor_location := vzero |};
     log := [] |}.

(** Three empties at the corners of a right triangle with legs of 2^-40:
    its weight sum, -2^-159, is not zero but is zero as a binary32 divisor,
    so that line 23 raises [ZeroDivisionError] and line 40 returns [None]. *)
Definition tiny_triangle : list Vector :=
  [Vec 0 0 0; Vec (1 # 1099511627776) 0 0; Vec 0 (1 # 1099511627776) 0].

Definition tiny_triangle_scene : World := object_mode_scene tiny_triangle.

(** A circumcenter function that answers [None], as the code's does on the
    tiny triangle. *)
Definition answers_None (p1 p2 p3 : Vector) : result (option Vector) := Ret None.


(** * Properties *)

(** ** Vector algebra *)

Lemma veq_refl (p : Vector) : p =v= p.
Proof. unfold veq; repeat split; reflexivity. Qed.

Lemma veq_sym (p q : Vector) : p =v= q -> q =v= p.
Proof. unfold veq; intros (H1 & H2 & H3); repeat split; symmetry; assumption. Qed.

Lemma veq_trans (p q r : Vector) : p =v= q -> q =v= r -> p =v= r.
Proof.
  unfold veq; intros (H1 & H2 & H3) (K1 & K2 & K3).
  repeat split; etransitivity; eassumption.
Qed.

Ltac vector_ring :=
  repeat match goal with p : Vector |- _ => destruct p end;
  cbv [center_3d numerator_3d weight_sum weights_3d dist2 length_squared dot cross
       vsub vadd vneg smul vzero veq vx vy vz];
  repeat split; ring.

Lemma length_squared_zero (p : Vector) : length_squared p == 0 <-> p =v= vzero.
Proof.
  destruct p as [a b c]; unfold length_squared, dot, veq; simpl; split.
  - intros H; repeat split; nra.
  - intros (Ha & Hb & Hc); rewrite Ha, Hb, Hc; ring.
Qed.

(** The weights sum to minus twice the squared cross product of two edges
    (sixteen times the squared area, up to sign). *)
Lemma weight_sum_cross (p1 p2 p3 : Vector) :
  weight_sum p1 p2 p3 == - (2 # 1) * length_squared (cross (vsub p2 p1) (vsub p3 p1)).
Proof. vector_ring. Qed.

Lemma weight_sum_zero_iff (p1 p2 p3 : Vector) :
  weight_sum p1 p2 p3 == 0 <-> collinear p1 p2 p3.
Proof.
  unfold collinear; rewrite <- length_squared_zero, weight_sum_cross.
  split; intros H; [ | rewrite H; ring ].
  lra.
Qed.

Lemma dist2_diff (c p q : Vector) :
  dist2 c p - dist2 c q ==
  (2 # 1) * dot c (vsub q p) - (length_squared q - length_squared p).
Proof. vector_ring. Qed.

(** The numerator lies, up to the factor [weight_sum], on the bisector
    planes of the edges. *)
Lemma bisector_12 (p1 p2 p3 : Vector) :
  (2 # 1) * dot (numerator_3d p1 p2 p3) (vsub p2 p1) ==
  weight_sum p1 p2 p3 * (length_squared p2 - length_squared p1).
Proof. vector_ring. Qed.

Lemma bisector_23 (p1 p2 p3 : Vector) :
  (2 # 1) * dot (numerator_3d p1 p2 p3) (vsub p3 p2) ==
  weight_sum p1 p2 p3 * (length_squared p3 - length_squared p2).
Proof. vector_ring. Qed.

(** A point [n / s] whose numerator satisfies the scaled bisector equation
    of [p] and [q] is at the same distance from both. *)
Lemma scaled_bisector (n p q : Vector) (s : Q) :
  ~ s == 0 ->
  (2 # 1) * dot n (vsub q p) == s * (length_squared q - length_squared p) ->
  dist2 (Vec (vx n / s) (vy n / s) (vz n / s)) p ==
  dist2 (Vec (vx n / s) (vy n / s) (vz n / s)) q.
Proof.
  intros Hs H.
  assert (E : dist2 (Vec (vx n / s) (vy n / s) (vz n / s)) p -
              dist2 (Vec (vx n / s) (vy n / s) (vz n / s)) q == 0).
  { rewrite dist2_diff.
    assert (D : dot (Vec (vx n / s) (vy n / s) (vz n / s)) (vsub q p) ==
                dot n (vsub q p) / s).
    { destruct n, p, q; unfold dot, vsub; simpl; field; exact Hs. }
    rewrite D.
    assert (D2 : (2 # 1) * (dot n (vsub q p) / s) == (2 # 1) * dot n (vsub q p) / s)
      by (field; exact Hs).
    rewrite D2, H. field. exact Hs. }
  lra.
Qed.

Lemma equidistant_of_radius (c : Vector) (r : Q) (ps : list Vector) :
  Forall (fun p => dist2 c p == r) ps -> equidistant c ps.
Proof.
  intros H p q Hp Hq. rewrite Forall_forall in H.
  rewrite (H p Hp), (H q Hq). reflexivity.
Qed.

(** ** calculate_circumcenter_3d *)

Lemma report_is_unbound : load_global "report" = Raise NameError.
Proof. reflexivity. Qed.

(** The function by cases on the weight sum. *)
Lemma circumcenter_3d_cases (p1 p2 p3 : Vector) :
  calculate_circumcenter_3d p1 p2 p3 =
  if Qeq_bool (weight_sum p1 p2 p3) 0 then Raise NameError
  else Ret (Some (center_3d p1 p2 p3)).
Proof.
  unfold calculate_circumcenter_3d, center_3d, numerator_3d, weight_sum,
    barycentric_to_world, vdiv.
  destruct (weights_3d p1 p2 p3) as [[u v] w].
  destruct (Qeq_bool (u + v + w) 0); reflexivity.
Qed.

Lemma circumcenter_3d_collinear (p1 p2 p3 : Vector) :
  collinear p1 p2 p3 -> calculate_circumcenter_3d p1 p2 p3 = Raise NameError.
Proof.
  intros H. rewrite circumcenter_3d_cases.
  apply weight_sum_zero_iff, Qeq_bool_iff in H. rewrite H. reflexivity.
Qed.

Lemma circumcenter_3d_not_collinear (p1 p2 p3 : Vector) :
  ~ collinear p1 p2 p3 ->
  calculate_circumcenter_3d p1 p2 p3 = Ret (Some (center_3d p1 p2 p3)).
Proof.
  intros H. rewrite circumcenter_3d_cases.
  destruct (Qeq_bool (weight_sum p1 p2 p3) 0) eqn:E; [ | reflexivity ].
  exfalso. apply H, weight_sum_zero_iff, Qeq_bool_iff, E.
Qed.

Lemma collinear_dec (p1 p2 p3 : Vector) :
  {collinear p1 p2 p3} + {~ collinear p1 p2 p3}.
Proof.
  destruct (Qeq_bool (weight_sum p1 p2 p3) 0) eqn:E.
  - left. apply weight_sum_zero_iff, Qeq_bool_iff, E.
  - right. intros H. apply weight_sum_zero_iff, Qeq_bool_iff in H. congruence.
Qed.

Lemma center_3d_barycentric (p1 p2 p3 : Vector) :
  center_3d p1 p2 p3 =v= barycentric_combination p1 p2 p3.
Proof.
  destruct p1, p2, p3.
  cbv [center_3d barycentric_combination numerator_3d weight_sum weights_3d
       length_squared dot vsub vadd smul veq vx vy vz].
  repeat split.
  all: match goal with |- ?a / ?s == ?b / ?t =>
         assert (Hs : s == t) by ring;
         assert (Ha : a == b) by ring;
         rewrite Hs, Ha; reflexivity
       end.
Qed.

Lemma center_3d_equidistant (p1 p2 p3 : Vector) :
  ~ collinear p1 p2 p3 -> equidistant (center_3d p1 p2 p3) [p1; p2; p3].
Proof.
  intros H.
  assert (Hs : ~ weight_sum p1 p2 p3 == 0)
    by (intros E; apply H, weight_sum_zero_iff, E).
  pose proof (scaled_bisector _ p1 p2 _ Hs (bisector_12 p1 p2 p3)) as H12.
  pose proof (scaled_bisector _ p2 p3 _ Hs (bisector_23 p1 p2 p3)) as H23.
  fold (center_3d p1 p2 p3) in H12, H23.
  apply equidistant_of_radius with (r := dist2 (center_3d p1 p2 p3) p1).
  apply Forall_cons; [ reflexivity | ].
  apply Forall_cons; [ symmetry; exact H12 | ].
  apply Forall_cons; [ | apply Forall_nil ].
  rewrite <- H23. symmetry; exact H12.
Qed.

(** In exact arithmetic: for three points that are not collinear the
    barycentric branch is taken, and what it returns is the barycentric
    combination [(u*p1 + v*p2 + w*p3) / (u+v+w)], at the same distance from
    the three points.  The code evaluates the same expressions with
    rounding. *)
Lemma circumcenter_3d_equidistant (p1 p2 p3 : Vector) :
  ~ collinear p1 p2 p3 ->
  exists c,
    calculate_circumcenter_3d p1 p2 p3 = Ret (Some c) /\
    c =v= barycentric_combination p1 p2 p3 /\
    equidistant c [p1; p2; p3].
Proof.
  intros H. exists (center_3d p1 p2 p3). split; [ | split ].
  - apply circumcenter_3d_not_collinear, H.
  - apply center_3d_barycentric.
  - apply center_3d_equidistant, H.
Qed.

(** The example of the specification: the circumcenter of (0,0,0), (2,0,0),
    (0,2,0) is (1,1,0). *)
Example circumcenter_3d_example :
  exists c,
    calculate_circumcenter_3d (Vec 0 0 0) (Vec 2 0 0) (Vec 0 2 0) = Ret (Some c) /\
    c =v= Vec 1 1 0.
Proof. eexists; split; [ vm_compute; reflexivity | repeat split; reflexivity ]. Qed.

(** C3: on three collinear points the specification promises the arithmetic
    mean and a warning.  The code reaches the fallback branch and stops at
    its first statement: [report] is bound nowhere, so the call raises
    [NameError] and the mean is never returned. *)
Theorem collinear_fallback_raises (p1 p2 p3 : Vector) :
  collinear p1 p2 p3 ->
  calculate_circumcenter_3d p1 p2 p3 = Raise NameError /\
  calculate_circumcenter_3d p1 p2 p3 <> Ret (Some (arithmetic_mean p1 p2 p3)).
Proof.
  intros H. rewrite (circumcenter_3d_collinear _ _ _ H).
  split; [ reflexivity | discriminate ].
Qed.

Lemma collinear_fallback_raises_witness :
  collinear (Vec 0 0 0) (Vec 1 0 0) (Vec 2 0 0) /\
  calculate_circumcenter_3d (Vec 0 0 0) (Vec 1 0 0) (Vec 2 0 0) = Raise NameError /\
  calculate_circumcenter_3d (Vec 0 0 0) (Vec 1 0 0) (Vec 2 0 0)
    <> Ret (Some (arithmetic_mean (Vec 0 0 0) (Vec 1 0 0) (Vec 2 0 0))).
Proof.
  assert (H : collinear (Vec 0 0 0) (Vec 1 0 0) (Vec 2 0 0))
    by (repeat split; reflexivity).
  split; [ exact H | ].
  exact (collinear_fallback_raises (Vec 0 0 0) (Vec 1 0 0) (Vec 2 0 0) H).
Defined.

(** C4: the outcomes of [calculate_circumcenter_3d], for every input: it
    never returns [None]; off a line it returns a point; on a line it lets
    [NameError] escape to its caller. *)
Theorem circumcenter_3d_outcomes (p1 p2 p3 : Vector) :
  (collinear p1 p2 p3 /\
   calculate_circumcenter_3d p1 p2 p3 = Raise NameError) \/
  (~ collinear p1 p2 p3 /\
   calculate_circumcenter_3d p1 p2 p3 = Ret (Some (center_3d p1 p2 p3))).
Proof.
  destruct (collinear_dec p1 p2 p3) as [H | H]; [ left | right ]; split; trivial.
  - apply circumcenter_3d_collinear, H.
  - apply circumcenter_3d_not_collinear, H.
Qed.

(** *** Order of the arguments *)

Lemma same_outcome_cases (n n' : Vector) (s s' : Q) :
  n =v= n' -> s == s' ->
  same_outcome
    (if Qeq_bool s 0 then Raise NameError
     else Ret (Some (Vec (vx n / s) (vy n / s) (vz n / s))))
    (if Qeq_bool s' 0 then Raise NameError
     else Ret (Some (Vec (vx n' / s') (vy n' / s') (vz n' / s')))).
Proof.
  intros (Hx & Hy & Hz) Hs.
  assert (E : Qeq_bool s' 0 = Qeq_bool s 0).
  { destruct (Qeq_bool s 0) eqn:E1, (Qeq_bool s' 0) eqn:E2; trivial.
    - apply Qeq_bool_iff in E1. rewrite Hs in E1. apply Qeq_bool_iff in E1. congruence.
    - apply Qeq_bool_iff in E2. rewrite <- Hs in E2. apply Qeq_bool_iff in E2. congruence. }
  rewrite E. destruct (Qeq_bool s 0); simpl; [ reflexivity | ].
  unfold veq; simpl. rewrite Hx, Hy, Hz, Hs. repeat split; reflexivity.
Qed.

Lemma same_outcome_of_parts (p1 p2 p3 q1 q2 q3 : Vector) :
  numerator_3d p1 p2 p3 =v= numerator_3d q1 q2 q3 ->
  weight_sum p1 p2 p3 == weight_sum q1 q2 q3 ->
  same_outcome (calculate_circumcenter_3d p1 p2 p3) (calculate_circumcenter_3d q1 q2 q3).
Proof.
  intros Hn Hs. rewrite !circumcenter_3d_cases. unfold center_3d.
  apply same_outcome_cases; assumption.
Qed.

(** The lists that are permutations of a list of three. *)
Lemma Permutation_three {A : Type} (a b c x y z : A) :
  Permutation [a; b; c] [x; y; z] ->
  [x; y; z] = [a; b; c] \/ [x; y; z] = [a; c; b] \/ [x; y; z] = [b; a; c] \/
  [x; y; z] = [b; c; a] \/ [x; y; z] = [c; a; b] \/ [x; y; z] = [c; b; a].
Proof.
  intros H.
  destruct (Permutation_vs_cons_inv (Permutation_sym H)) as (l1 & l2 & E).
  rewrite E in H. apply Permutation_cons_app_inv in H.
  destruct l1 as [ | x1 [ | x2 [ | x3 l1 ] ] ]; simpl in *.
  4: { exfalso. injection E as _ _ _ E. destruct l1; discriminate. }
  all: injection E; intros; subst;
    apply Permutation_length_2_inv in H as [H | H];
    injection H; intros; subst; auto 8.
Qed.

(** In exact arithmetic the weights and their sum are symmetric in the
    three points, so every order of the arguments has the same outcome. *)
Lemma circumcenter_3d_permutation (p1 p2 p3 q1 q2 q3 : Vector) :
  Permutation [p1; p2; p3] [q1; q2; q3] ->
  same_outcome (calculate_circumcenter_3d p1 p2 p3)
               (calculate_circumcenter_3d q1 q2 q3) /\
  arithmetic_mean p1 p2 p3 =v= arithmetic_mean q1 q2 q3.
Proof.
  intros H.
  destruct (Permutation_three _ _ _ _ _ _ H) as [E | [E | [E | [E | [E | E]]]]];
    injection E as -> -> ->; (split; [ apply same_outcome_of_parts | ]);
    clear H; try vector_ring.
  all: destruct p1, p2, p3; unfold arithmetic_mean, veq; simpl;
    repeat split; field.
Qed.


(** ** numpy.linalg.solve and calculate_circumcenter_4d *)

Lemma linalg_solve_cases (M : np.Matrix3) (rhs : Vector) :
  np.linalg_solve M rhs =
  if Qeq_bool (np.det M) 0 then Raise LinAlgError else Ret (solution M rhs).
Proof.
  destruct M as [[r1 r2] r3]. unfold np.linalg_solve, solution, vdiv.
  destruct (Qeq_bool _ 0); reflexivity.
Qed.

(** The solution satisfies the three equations of the system. *)
Lemma solution_rows (r1 r2 r3 rhs : Vector) :
  ~ np.det (r1, r2, r3) == 0 ->
  dot r1 (solution (r1, r2, r3) rhs) == vx rhs /\
  dot r2 (solution (r1, r2, r3) rhs) == vy rhs /\
  dot r3 (solution (r1, r2, r3) rhs) == vz rhs.
Proof.
  destruct r1, r2, r3, rhs.
  cbv [solution np.det dot cross vadd smul vx vy vz].
  intros H. repeat split; field; exact H.
Qed.

Lemma det_system_matrix (A B C D : Vector) :
  np.det (system_matrix A B C D) ==
  (8 # 1) * dot (vsub B A) (cross (vsub C A) (vsub D A)).
Proof.
  destruct A, B, C, D.
  cbv [np.det system_matrix dot cross vsub vx vy vz]. ring.
Qed.

Lemma det_zero_iff_coplanar (A B C D : Vector) :
  np.det (system_matrix A B C D) == 0 <-> coplanar A B C D.
Proof.
  unfold coplanar. rewrite det_system_matrix. split; intros H; [ lra | rewrite H; ring ].
Qed.

Lemma circumcenter_4d_cases (A B C D : Vector) :
  calculate_circumcenter_4d A B C D =
  if Qeq_bool (np.det (system_matrix A B C D)) 0 then Ret None
  else Ret (Some (solution (system_matrix A B C D) (right_hand_side A B C D))).
Proof.
  unfold calculate_circumcenter_4d. rewrite linalg_solve_cases.
  destruct (Qeq_bool _ 0); reflexivity.
Qed.

Lemma circumcenter_4d_coplanar (A B C D : Vector) :
  coplanar A B C D -> calculate_circumcenter_4d A B C D = Ret None.
Proof.
  intros H. rewrite circumcenter_4d_cases.
  apply (proj2 (det_zero_iff_coplanar A B C D)) in H.
  apply Qeq_bool_iff in H. rewrite H. reflexivity.
Qed.

Lemma circumcenter_4d_not_coplanar (A B C D : Vector) :
  ~ coplanar A B C D ->
  calculate_circumcenter_4d A B C D =
  Ret (Some (solution (system_matrix A B C D) (right_hand_side A B C D))).
Proof.
  intros H. rewrite circumcenter_4d_cases.
  destruct (Qeq_bool _ 0) eqn:E; [ | reflexivity ].
  exfalso. apply Qeq_bool_iff in E.
  exact (H (proj1 (det_zero_iff_coplanar A B C D) E)).
Qed.

(** A row [2 (q - p) . x = |q|^2 - |p|^2] says that [x] is as far from [p]
    as from [q]. *)
Lemma row_bisector (x p q : Vector) :
  dot (Vec (2 * (vx q - vx p)) (2 * (vy q - vy p)) (2 * (vz q - vz p))) x ==
  vx q ^ 2 + vy q ^ 2 + vz q ^ 2 - vx p ^ 2 - vy p ^ 2 - vz p ^ 2 ->
  dist2 x p == dist2 x q.
Proof.
  intros H.
  assert (E : dist2 x p - dist2 x q == 0); [ | lra ].
  rewrite dist2_diff.
  assert (L : (2 # 1) * dot x (vsub q p) ==
              dot (Vec (2 * (vx q - vx p)) (2 * (vy q - vy p)) (2 * (vz q - vz p))) x)
    by (destruct x, p, q; cbv [dot vsub vx vy vz]; ring).
  assert (R : length_squared q - length_squared p ==
              vx q ^ 2 + vy q ^ 2 + vz q ^ 2 - vx p ^ 2 - vy p ^ 2 - vz p ^ 2)
    by (destruct p, q; cbv [length_squared dot vx vy vz]; ring).
  rewrite L, R, H. ring.
Qed.

Lemma solution_equidistant (A B C D : Vector) :
  ~ coplanar A B C D ->
  equidistant (solution (system_matrix A B C D) (right_hand_side A B C D)) [A; B; C; D].
Proof.
  intros H.
  assert (Hd : ~ np.det (system_matrix A B C D) == 0)
    by (intros E; exact (H (proj1 (det_zero_iff_coplanar A B C D) E))).
  set (x := solution (system_matrix A B C D) (right_hand_side A B C D)).
  destruct (solution_rows _ _ _ (right_hand_side A B C D) Hd) as (H1 & H2 & H3).
  fold (system_matrix A B C D) in H1, H2, H3. fold x in H1, H2, H3.
  apply row_bisector in H1, H2, H3.
  apply equidistant_of_radius with (r := dist2 x A).
  repeat (apply Forall_cons || apply Forall_nil).
  - reflexivity.
  - symmetry; exact H1.
  - rewrite <- H2; symmetry; exact H1.
  - rewrite <- H3, <- H2; symmetry; exact H1.
Qed.

(** In exact arithmetic: for four points that are not coplanar the system
    has a solution, at the same distance from the four points; for
    (0,0,0), (2,0,0), (0,2,0), (0,0,2) it is (1,1,1). *)
Lemma circumcenter_4d_equidistant :
  (forall A B C D : Vector,
      ~ coplanar A B C D ->
      exists c,
        calculate_circumcenter_4d A B C D = Ret (Some c) /\
        equidistant c [A; B; C; D]) /\
  (exists c,
      calculate_circumcenter_4d (Vec 0 0 0) (Vec 2 0 0) (Vec 0 2 0) (Vec 0 0 2)
        = Ret (Some c) /\
      c =v= Vec 1 1 1).
Proof.
  split.
  - intros A B C D H. eexists. split.
    + apply circumcenter_4d_not_coplanar, H.
    + apply solution_equidistant, H.
  - eexists. split; [ vm_compute; reflexivity | repeat split; reflexivity ].
Qed.


(** ** MoveToCircumcenterOperator *)

Section Circumcenter.
Import MoveToCircumcenterOperator.

Lemma four_or_three_iff {A : Type} (l : list A) :
  four_or_three l = true <-> List.length l = 3%nat \/ List.length l = 4%nat.
Proof.
  unfold four_or_three. rewrite orb_true_iff, !Nat.eqb_eq. tauto.
Qed.

(** *** poll *)

Lemma poll_mesh_edit (c : Context) (obj : Object) (verts : list BMVert) :
  object c = Some obj -> data obj = Mesh verts -> mode obj = EDIT ->
  poll c = Ret (four_or_three (filter select verts)).
Proof.
  intros Ho Hd Hm. unfold poll, type. rewrite Ho, Hm, Hd. simpl.
  destruct (four_or_three (filter select verts)); reflexivity.
Qed.

Lemma poll_object_mode (c : Context) (obj : Object) :
  object c = Some obj -> mode obj = OBJECT ->
  poll c = Ret (four_or_three (selected_objects c)).
Proof.
  intros Ho Hm. unfold poll. rewrite Ho, Hm. simpl.
  destruct (four_or_three (selected_objects c)); [ reflexivity | ].
  destruct (type obj); reflexivity.
Qed.

Lemma poll_pose (c : Context) (obj : Object) :
  object c = Some obj -> data obj = Armature -> mode obj = POSE ->
  poll c = Ret (four_or_three (selected_pose_bones c)).
Proof.
  intros Ho Hd Hm. unfold poll, type. rewrite Ho, Hm, Hd. simpl.
  destruct (four_or_three (selected_pose_bones c)); reflexivity.
Qed.

Lemma poll_armature_edit (c : Context) (obj : Object) :
  object c = Some obj -> data obj = Armature -> mode obj = EDIT ->
  poll c = Raise TypeError.
Proof.
  intros Ho Hd Hm. unfold poll. rewrite Ho, Hm, Hd. reflexivity.
Qed.

(** C8: what [poll] answers in each of the four selection contexts.  For
    mesh vertices, whole objects and pose bones it is enabled exactly on
    3 or 4 selected entities.  For the edit bones of an armature it asks
    bmesh for an edit mesh of the armature first and ends in [TypeError],
    whatever the number of selected bones. *)
Theorem poll_by_context (k : SelectionContext) (c : Context) (obj : Object) :
  object c = Some obj ->
  in_selection_context k obj ->
  match k with
  | ArmatureEdit => poll c = Raise TypeError
  | _ => exists b, poll c = Ret b /\
                   (b = true <-> selected_count k c obj = 3%nat \/
                                 selected_count k c obj = 4%nat)
  end.
Proof.
  intros Ho Hk. destruct k; simpl in Hk |- *.
  - destruct Hk as [Ht Hm]. unfold type in Ht.
    destruct (data obj) as [verts | | ] eqn:Hd; try discriminate.
    eexists; split; [ apply (poll_mesh_edit c obj verts); assumption | ].
    apply four_or_three_iff.
  - eexists; split; [ apply (poll_object_mode c obj); assumption | ].
    apply four_or_three_iff.
  - destruct Hk as [Ht Hm]. unfold type in Ht.
    destruct (data obj) eqn:Hd; try discriminate.
    eexists; split; [ apply (poll_pose c obj); assumption | ].
    apply four_or_three_iff.
  - destruct Hk as [Ht Hm]. unfold type in Ht.
    destruct (data obj) eqn:Hd; try discriminate.
    apply (poll_armature_edit c obj); assumption.
Qed.

Lemma poll_by_context_witness :
  selected_count ArmatureEdit (context armature_edit_scene)
    {| data := Armature; mode := EDIT; matrix_world := identity_matrix;
       location := vzero; rotation_euler := euler_xyz 0 0 0 |} = 3%nat /\
  poll (context armature_edit_scene) = Raise TypeError.
Proof.
  split; [ reflexivity | ].
  apply (poll_by_context ArmatureEdit (context armature_edit_scene)
           {| data := Armature; mode := EDIT; matrix_world := identity_matrix;
              location := vzero; rotation_euler := euler_xyz 0 0 0 |}).
  - reflexivity.
  - split; reflexivity.
Defined.

(** [execute] does not serve that context either: past the bmesh call, which
    it guards with [obj.type == 'MESH'], it asks the first selected edit
    bone for [head_local]. *)
Example execute_armature_edit :
  execute armature_edit_scene = (Raise AttributeError, armature_edit_scene).
Proof. vm_compute. reflexivity. Qed.

(** *** execute *)

Lemma op_for_reports {A : Type} (xs : list A) (lvl : Level) (f : A -> Message)
      (w : World) :
  op_for xs (fun x => report lvl (f x)) w =
  (Ret tt, {| context := context w;
              log := log w ++ map (fun x => {| level := lvl; message := f x |}) xs |}).
Proof.
  revert w. induction xs as [ | x xs IH ]; intros [c lg]; simpl.
  - unfold op_ret. rewrite app_nil_r. reflexivity.
  - unfold op_bind, report at 1. simpl. rewrite IH. simpl.
    rewrite <- app_assoc. reflexivity.
Qed.

(** [solve] by cases on what the two functions return. *)
Lemma solve_three (p0 p1 p2 : Vector) (w : World) :
  solve [p0; p1; p2] w =
  match calculate_circumcenter_3d p0 p1 p2 with
  | Ret c => (Ret (Some c), w)
  | Raise e => (Raise e, w)
  end.
Proof.
  unfold solve, op_bind, lift, op_ret.
  destruct (calculate_circumcenter_3d p0 p1 p2); reflexivity.
Qed.

Lemma solve_four (p0 p1 p2 p3 : Vector) (w : World) :
  solve [p0; p1; p2; p3] w =
  match calculate_circumcenter_4d p0 p1 p2 p3 with
  | Ret (Some c) => (Ret (Some (Some c)), w)
  | Ret None =>
    match calculate_circumcenter_3d p0 p1 p2 with
    | Ret (Some c) =>
      (Ret (Some (Some c)),
       {| context := context w;
          log := log w ++ [{| level := WARNING; message := coplanar_warning |}] |})
    | Ret None => (Ret (Some None), w)
    | Raise e => (Raise e, w)
    end
  | Raise e => (Raise e, w)
  end.
Proof.
  unfold solve, op_bind, lift, op_ret, report.
  destruct (calculate_circumcenter_4d p0 p1 p2 p3) as [[c | ] | e]; try reflexivity.
  destruct (calculate_circumcenter_3d p0 p1 p2) as [[c | ] | e]; reflexivity.
Qed.

Lemma solve_context (p : list Vector) (w : World) :
  context (snd (solve p w)) = context w.
Proof.
  destruct p as [ | p0 [ | p1 [ | p2 [ | p3 [ | p4 p ] ] ] ] ]; try reflexivity.
  - rewrite solve_three. destruct (calculate_circumcenter_3d p0 p1 p2); reflexivity.
  - rewrite solve_four.
    destruct (calculate_circumcenter_4d p0 p1 p2 p3) as [[c | ] | e]; try reflexivity.
    destruct (calculate_circumcenter_3d p0 p1 p2) as [[c | ] | e]; reflexivity.
Qed.

(** [execute] from the points it gathered and the answer of [solve]. *)
Lemma execute_after_solve (w : World) (p : list Vector) :
  gather_points (context w) = Ret p ->
  execute w =
  match solve p w with
  | (Ret None, w') => (Raise UnboundLocalError, w')
  | (Ret (Some None), w') =>
    (Ret CANCELLED,
     {| context := context w';
        log := log w' ++ [{| level := ERROR; message := no_circumcenter_error |}] |})
  | (Ret (Some (Some c)), w') =>
    (Ret FINISHED,
     {| context := with_cursor (context w') c;
        log := log w' ++ distance_reports c p |})
  | (Raise e, w') => (Raise e, w')
  end.
Proof.
  intros Hp. unfold execute, op_bind at 1, get_context.
  unfold op_bind at 1, lift at 1. rewrite Hp.
  unfold op_bind at 1.
  destruct (solve p w) as [[[[c | ] | ] | e] w']; try reflexivity.
  unfold op_bind. rewrite op_for_reports. reflexivity.
Qed.

Lemma execute_gather_raises (w : World) (e : exn) :
  gather_points (context w) = Raise e -> execute w = (Raise e, w).
Proof.
  intros Hp. unfold execute, op_bind, get_context, lift. rewrite Hp. reflexivity.
Qed.

(** *** The operator over any pair of circumcenter functions *)

Section AnyFunctions.

Variable cc3 : Vector -> Vector -> Vector -> result (option Vector).
Variable cc4 : Vector -> Vector -> Vector -> Vector -> result (option Vector).

Lemma solve_with_three (p0 p1 p2 : Vector) (w : World) :
  solve_with cc3 cc4 [p0; p1; p2] w =
  match cc3 p0 p1 p2 with
  | Ret c => (Ret (Some c), w)
  | Raise e => (Raise e, w)
  end.
Proof.
  unfold solve_with, op_bind, lift, op_ret.
  destruct (cc3 p0 p1 p2); reflexivity.
Qed.

Lemma solve_with_four (p0 p1 p2 p3 : Vector) (w : World) :
  solve_with cc3 cc4 [p0; p1; p2; p3] w =
  match cc4 p0 p1 p2 p3 with
  | Ret (Some c) => (Ret (Some (Some c)), w)
  | Ret None =>
    match cc3 p0 p1 p2 with
    | Ret (Some c) =>
      (Ret (Some (Some c)),
       {| context := context w;
          log := log w ++ [{| level := WARNING; message := coplanar_warning |}] |})
    | Ret None => (Ret (Some None), w)
    | Raise e => (Raise e, w)
    end
  | Raise e => (Raise e, w)
  end.
Proof.
  unfold solve_with, op_bind, lift, op_ret, report.
  destruct (cc4 p0 p1 p2 p3) as [[c | ] | e]; try reflexivity.
  destruct (cc3 p0 p1 p2) as [[c | ] | e]; reflexivity.
Qed.

Lemma solve_with_context (p : list Vector) (w : World) :
  context (snd (solve_with cc3 cc4 p w)) = context w.
Proof.
  destruct p as [ | p0 [ | p1 [ | p2 [ | p3 [ | p4 p ] ] ] ] ]; try reflexivity.
  - rewrite solve_with_three. destruct (cc3 p0 p1 p2); reflexivity.
  - rewrite solve_with_four.
    destruct (cc4 p0 p1 p2 p3) as [[c | ] | e]; try reflexivity.
    destruct (cc3 p0 p1 p2) as [[c | ] | e]; reflexivity.
Qed.

Lemma execute_with_after_solve (w : World) (p : list Vector) :
  gather_points (context w) = Ret p ->
  execute_with cc3 cc4 w =
  match solve_with cc3 cc4 p w with
  | (Ret None, w') => (Raise UnboundLocalError, w')
  | (Ret (Some None), w') =>
    (Ret CANCELLED,
     {| context := context w';
        log := log w' ++ [{| level := ERROR; message := no_circumcenter_error |}] |})
  | (Ret (Some (Some c)), w') =>
    (Ret FINISHED,
     {| context := with_cursor (context w') c;
        log := log w' ++ distance_reports c p |})
  | (Raise e, w') => (Raise e, w')
  end.
Proof.
  intros Hp. unfold execute_with, op_bind at 1, get_context.
  unfold op_bind at 1, lift at 1. rewrite Hp.
  unfold op_bind at 1.
  destruct (solve_with cc3 cc4 p w) as [[[[c | ] | ] | e] w']; try reflexivity.
  unfold op_bind. rewrite op_for_reports. reflexivity.
Qed.

Lemma execute_with_gather_raises (w : World) (e : exn) :
  gather_points (context w) = Raise e -> execute_with cc3 cc4 w = (Raise e, w).
Proof.
  intros Hp. unfold execute_with, op_bind, get_context, lift. rewrite Hp. reflexivity.
Qed.

(** Line 161 is reached before line 167. *)
Lemma execute_with_cancelled (w : World) :
  fst (execute_with cc3 cc4 w) = Ret CANCELLED ->
  context (snd (execute_with cc3 cc4 w)) = context w.
Proof.
  destruct (gather_points (context w)) as [p | e] eqn:Hp.
  - rewrite (execute_with_after_solve w p Hp).
    pose proof (solve_with_context p w) as Hc.
    destruct (solve_with cc3 cc4 p w) as [[[[c | ] | ] | e] w'];
      simpl in *; congruence.
  - rewrite (execute_with_gather_raises w e Hp). reflexivity.
Qed.

End AnyFunctions.

(** The operator of the file is the instance at its two functions. *)
Lemma execute_with_code :
  execute_with calculate_circumcenter_3d calculate_circumcenter_4d = execute.
Proof. reflexivity. Qed.

(** The cursor is written on the FINISHED path only. *)
Lemma execute_unfinished_untouched (w : World) :
  fst (execute w) <> Ret FINISHED -> context (snd (execute w)) = context w.
Proof.
  destruct (gather_points (context w)) as [p | e] eqn:Hp.
  - rewrite (execute_after_solve w p Hp).
    pose proof (solve_context p w) as Hc.
    destruct (solve p w) as [[[[c | ] | ] | e] w']; simpl in *; congruence.
  - rewrite (execute_gather_raises w e Hp). reflexivity.
Qed.

(** C5: on four coplanar points [calculate_circumcenter_4d] returns
    [None] and [execute] goes on with [calculate_circumcenter_3d] on the
    first three.  When that call returns a point, the cursor is moved
    there and the degradation warning is reported; when the first three
    points are collinear its [NameError] leaves [execute] with no
    warning and the cursor where it was. *)
Theorem coplanar_fallback (w : World) (A B C D : Vector) :
  gather_points (context w) = Ret [A; B; C; D] ->
  coplanar A B C D ->
  calculate_circumcenter_4d A B C D = Ret None /\
  execute w =
  match calculate_circumcenter_3d A B C with
  | Ret (Some c) =>
    (Ret FINISHED,
     {| context := with_cursor (context w) c;
        log := (log w ++ [{| level := WARNING; message := coplanar_warning |}])
                 ++ distance_reports c [A; B; C; D] |})
  | Ret None =>
    (Ret CANCELLED,
     {| context := context w;
        log := log w ++ [{| level := ERROR; message := no_circumcenter_error |}] |})
  | Raise e => (Raise e, w)
  end.
Proof.
  intros Hp Hc. pose proof (circumcenter_4d_coplanar A B C D Hc) as H4.
  split; [ exact H4 | ].
  rewrite (execute_after_solve w _ Hp), solve_four, H4.
  destruct (calculate_circumcenter_3d A B C) as [[c | ] | e]; reflexivity.
Qed.

Lemma coplanar_fallback_witness :
  calculate_circumcenter_4d (Vec 0 0 0) (Vec 1 0 0) (Vec 2 0 0) (Vec 0 1 0) = Ret None /\
  execute (object_mode_scene [Vec 0 0 0; Vec 1 0 0; Vec 2 0 0; Vec 0 1 0]) =
  (Raise NameError, object_mode_scene [Vec 0 0 0; Vec 1 0 0; Vec 2 0 0; Vec 0 1 0]).
Proof.
  apply (coplanar_fallback
           (object_mode_scene [Vec 0 0 0; Vec 1 0 0; Vec 2 0 0; Vec 0 1 0])
           (Vec 0 0 0) (Vec 1 0 0) (Vec 2 0 0) (Vec 0 1 0)).
  - reflexivity.
  - reflexivity.
Defined.

(** With the first three points off a line the fallback is what the
    specification describes. *)
Example square_fallback_example :
  exists c,
    calculate_circumcenter_3d (Vec 0 0 0) (Vec 2 0 0) (Vec 0 2 0) = Ret (Some c) /\
    fst (execute (object_mode_scene [Vec 0 0 0; Vec 2 0 0; Vec 0 2 0; Vec 2 2 0]))
      = Ret FINISHED /\
    cursor_location
      (context (snd (execute
         (object_mode_scene [Vec 0 0 0; Vec 2 0 0; Vec 0 2 0; Vec 2 2 0])))) = c /\
    hd_error (log (snd (execute
         (object_mode_scene [Vec 0 0 0; Vec 2 0 0; Vec 0 2 0; Vec 2 2 0])))) =
      Some {| level := WARNING; message := coplanar_warning |}.
Proof. eexists. repeat split; vm_compute; reflexivity. Qed.

End Circumcenter.

(** ** LookAtCursorOperator *)

Section LookAt.
Import LookAtCursorOperator Orient.

Variable track_raises : Direction -> Axis -> Axis -> bool.
Variable self : Props.

Lemma nth_error_middle {A : Type} (l1 : list A) (x : A) (l2 : list A) :
  nth_error (l1 ++ x :: l2) (List.length l1) = Some x.
Proof. induction l1; simpl; auto. Qed.

Lemma update_nth_middle {A : Type} (f : A -> A) (l1 : list A) (x : A) (l2 : list A) :
  update_nth (List.length l1) f (l1 ++ x :: l2) = l1 ++ f x :: l2.
Proof. induction l1; simpl; congruence. Qed.

Lemma body_step (cursor : Vector) (c : Context) (lg : list Report)
      (done : list Object) (obj : Object) (rest : list Object) :
  selected_objects c = done ++ obj :: rest ->
  body track_raises self cursor (List.length done) {| context := c; log := lg |} =
  if fails track_raises self cursor obj
  then (Ret (Some CANCELLED), {| context := c; log := lg ++ log_of CANCELLED |})
  else (Ret None,
        {| context := with_selected_objects c (done ++ oriented self cursor obj :: rest);
           log := lg |}).
Proof.
  intros Hs. unfold body, op_bind at 1, get_context; simpl.
  rewrite Hs, nth_error_middle.
  unfold fails, oriented, aim, to_track_quat.
  destruct (track_axes (axis self)) as [track up]; simpl.
  destruct (track_raises _ track up); [ reflexivity | ].
  unfold op_bind, set_rotation_euler, op_ret; simpl.
  rewrite Hs, update_nth_middle. reflexivity.
Qed.

Lemma for_objects_spec (cursor : Vector) (todo done : list Object)
      (c : Context) (lg : list Report) :
  selected_objects c = done ++ todo ->
  for_objects track_raises self cursor
              (seq (List.length done) (List.length todo))
              {| context := c; log := lg |} =
  let r := orient_until_failure track_raises self cursor todo in
  (Ret (fst r),
   {| context := with_selected_objects c (done ++ snd r);
      log := lg ++ log_of (fst r) |}).
Proof.
  revert done c. induction todo as [ | obj rest IH ]; intros done c Hs; simpl.
  - unfold op_ret. rewrite app_nil_r in *. rewrite app_nil_r, <- Hs.
    destruct c; reflexivity.
  - unfold op_bind. rewrite (body_step cursor c lg done obj rest Hs).
    destruct (fails track_raises self cursor obj) eqn:F; simpl.
    + unfold op_ret. rewrite <- Hs. destruct c; reflexivity.
    + specialize (IH (done ++ [oriented self cursor obj])
                     (with_selected_objects c (done ++ oriented self cursor obj :: rest))).
      rewrite length_app in IH; simpl in IH. rewrite Nat.add_1_r in IH.
      rewrite IH by (simpl; rewrite <- app_assoc; reflexivity).
      simpl. rewrite <- app_assoc. reflexivity.
Qed.

(** The operator is the loop over the whole selection. *)
Lemma execute_spec (w : World) :
  execute track_raises self w =
  let r := orient_until_failure track_raises self (cursor_location (context w))
                                (selected_objects (context w)) in
  (Ret (fst r),
   {| context := with_selected_objects (context w) (snd r);
      log := log w ++ log_of (fst r) |}).
Proof.
  destruct w as [c lg]. unfold execute, op_bind, get_context; simpl.
  apply (for_objects_spec (cursor_location c) (selected_objects c) [] c lg).
  reflexivity.
Qed.

Lemma orient_all (cursor : Vector) (objs : list Object) :
  forallb (fun o => negb (fails track_raises self cursor o)) objs = true ->
  orient_until_failure track_raises self cursor objs =
  (FINISHED, map (oriented self cursor) objs).
Proof.
  induction objs as [ | obj rest IH ]; simpl; [ reflexivity | ].
  rewrite andb_true_iff, negb_true_iff. intros [F H].
  rewrite F, (IH H). reflexivity.
Qed.

End LookAt.

Section Batch.
Import LookAtCursorOperator Orient.

Lemma never_raises_all (self : Props) (cursor : Vector) (objs : list Object) :
  forallb (fun o => negb (fails never_raises self cursor o)) objs = true.
Proof. induction objs; simpl; auto. Qed.

Lemma execute_host (self : Props) (w : World) :
  execute never_raises self w =
  (Ret FINISHED,
   {| context :=
        with_selected_objects (context w)
          (map (oriented self (cursor_location (context w)))
               (selected_objects (context w)));
      log := log w |}).
Proof.
  rewrite execute_spec, (orient_all _ _ _ _ (never_raises_all self _ _)). simpl.
  rewrite app_nil_r. reflexivity.
Qed.

(** C9: the direction the loop normalizes and hands to [to_track_quat] is
    [cursor - obj.location] without [reverse] and [obj.location - cursor]
    with it; the second is the exact negation of the first.  Every selected
    object gets the rotation computed from that direction. *)
Theorem reverse_negates_direction :
  (forall cursor_location obj_location : Vector,
      look_direction false cursor_location obj_location
        = vsub cursor_location obj_location /\
      look_direction true cursor_location obj_location
        = vsub obj_location cursor_location /\
      look_direction true cursor_location obj_location =v=
      vneg (look_direction false cursor_location obj_location)) /\
  (forall (self : Props) (w : World),
      selected_objects (context (snd (execute never_raises self w))) =
      map (fun obj =>
             with_rotation_euler obj
               (to_euler
                  (track_quat
                     (normalized
                        (if reverse self
                         then vsub (location obj) (cursor_location (context w))
                         else vsub (cursor_location (context w)) (location obj)))
                     (fst (track_axes (axis self)))
                     (snd (track_axes (axis self))))))
          (selected_objects (context w))).
Proof.
  split.
  - intros c l. split; [ reflexivity | split; [ reflexivity | ] ].
    destruct c, l. unfold look_direction, vneg, vsub, veq; simpl.
    repeat split; ring.
  - intros self w. rewrite execute_host. simpl.
    apply map_ext. intros obj. unfold oriented, aim, look_direction.
    destruct (reverse self); reflexivity.
Qed.

(** C6: mathutils does not raise on the zero direction, so the [except]
    branch that was to catch an object at the cursor never runs.  Every run
    ends FINISHED with every selected object given the rotation computed
    from its direction and with nothing reported; in a selection of three
    whose second object sits at the cursor, that object is not skipped: its
    rotation is overwritten like the others', without a report. *)
Theorem orient_rotates_object_at_cursor :
  (forall (self : Props) (w : World),
      execute never_raises self w =
      (Ret FINISHED,
       {| context :=
            with_selected_objects (context w)
              (map (oriented self (cursor_location (context w)))
                   (selected_objects (context w)));
          log := log w |})) /\
  nth_error
    (selected_objects
       (context (snd (execute never_raises default_props three_objects_scene)))) 1
    = Some (with_rotation_euler (empty_at (Vec 0 0 0))
              (to_euler (track_quat (normalized (vsub vzero (Vec 0 0 0))) Z Y))) /\
  log (snd (execute never_raises default_props three_objects_scene)) = [] /\
  ~ skips_objects_at_cursor default_props three_objects_scene
      (execute never_raises default_props three_objects_scene).
Proof.
  split; [ apply execute_host | ].
  split; [ vm_compute; reflexivity | ].
  split; [ vm_compute; reflexivity | ].
  intros (_ & H & _). apply H; [ | vm_compute; reflexivity ].
  exists (empty_at (Vec 0 0 0)). split; [ simpl; auto | reflexivity ].
Qed.

(** The divisor of the tiny triangle: -2^-159 exactly, which rounds to zero
    as a binary32 number (the least positive one is 2^-149). *)
Example tiny_triangle_divisor :
  weight_sum (Vec 0 0 0) (Vec (1 # 1099511627776) 0 0) (Vec 0 (1 # 1099511627776) 0)
    == - Qpower 2 (-159) /\
  SpecFloat.binary_normalize float32.prec float32.emax (-1) (-159) false
    = SpecFloat.S754_zero true.
Proof. split; vm_compute; reflexivity. Qed.

(** C7: a cancelled run leaves the scene untouched.  The circumcenter
    operator returns CANCELLED at line 161, before its one write at line
    167, whatever the circumcenter functions answered; the orient operator
    never returns CANCELLED, since [to_track_quat] does not raise. *)
Theorem cancelled_runs_leave_scene :
  (forall (cc3 : Vector -> Vector -> Vector -> result (option Vector))
          (cc4 : Vector -> Vector -> Vector -> Vector -> result (option Vector))
          (w : World),
      cancelled_leaves_untouched (MoveToCircumcenterOperator.execute_with cc3 cc4) w) /\
  (forall w : World,
      cancelled_leaves_untouched MoveToCircumcenterOperator.execute w) /\
  (forall (self : Props) (w : World),
      fst (execute never_raises self w) = Ret FINISHED /\
      cancelled_leaves_untouched (execute never_raises self) w).
Proof.
  split; [ | split ].
  - intros cc3 cc4 w. exact (execute_with_cancelled cc3 cc4 w).
  - intros w. rewrite <- execute_with_code.
    exact (execute_with_cancelled _ _ w).
  - intros self w. split; [ rewrite execute_host; reflexivity | ].
    unfold cancelled_leaves_untouched. rewrite execute_host. simpl. discriminate.
Qed.

Lemma cancelled_runs_leave_scene_witness :
  fst (MoveToCircumcenterOperator.execute_with answers_None calculate_circumcenter_4d
         tiny_triangle_scene) = Ret CANCELLED /\
  context (snd (MoveToCircumcenterOperator.execute_with
                  answers_None calculate_circumcenter_4d tiny_triangle_scene)) =
  context tiny_triangle_scene.
Proof.
  split; [ reflexivity | ].
  apply (proj1 cancelled_runs_leave_scene answers_None calculate_circumcenter_4d).
  reflexivity.
Defined.

End Batch.

(** * Further properties *)

(** ** The circumcenter operator, end to end *)

Section CircumcenterRuns.
Import MoveToCircumcenterOperator.

Lemma with_cursor_same (c : Context) : with_cursor c (cursor_location c) = c.
Proof. destruct c; reflexivity. Qed.

(** X6: whatever the selection, the operator changes nothing of the scene
    but the cursor location: the active object, the edit object and the
    three selections come out as they went in. *)
Theorem circumcenter_writes_cursor_only (w : World) :
  exists v, context (snd (execute w)) = with_cursor (context w) v.
Proof.
  destruct (gather_points (context w)) as [p | e] eqn:Hp.
  - rewrite (execute_after_solve w p Hp).
    pose proof (solve_context p w) as Hc.
    destruct (solve p w) as [[[[c | ] | ] | e] w']; simpl in *; rewrite Hc.
    + exists c; reflexivity.
    + exists (cursor_location (context w)); symmetry; apply with_cursor_same.
    + exists (cursor_location (context w)); symmetry; apply with_cursor_same.
    + exists (cursor_location (context w)); symmetry; apply with_cursor_same.
  - rewrite (execute_gather_raises w e Hp).
    exists (cursor_location (context w)); symmetry; apply with_cursor_same.
Qed.

Lemma four_or_three_length {A : Type} (l : list A) :
  four_or_three l = true -> List.length l = 3%nat \/ List.length l = 4%nat.
Proof. apply four_or_three_iff. Qed.

(** X8: on a selection of any other size than 3 or 4 the local
    [circumcenter] is never assigned, and [execute] ends in
    [UnboundLocalError] at the test [circumcenter is None], with the scene
    and the reports as they were. *)
Theorem execute_unbound_circumcenter (w : World) (p : list Vector) :
  gather_points (context w) = Ret p ->
  List.length p <> 3%nat ->
  List.length p <> 4%nat ->
  execute w = (Raise UnboundLocalError, w).
Proof.
  intros Hp H3 H4. rewrite (execute_after_solve w p Hp).
  destruct p as [ | p0 [ | p1 [ | p2 [ | p3 [ | p4 p ] ] ] ] ];
    try reflexivity; simpl in H3, H4; congruence.
Qed.

Lemma execute_unbound_circumcenter_witness :
  execute (object_mode_scene [Vec 0 0 0; Vec 1 0 0]) =
  (Raise UnboundLocalError, object_mode_scene [Vec 0 0 0; Vec 1 0 0]).
Proof.
  apply (execute_unbound_circumcenter _ [Vec 0 0 0; Vec 1 0 0]).
  - reflexivity.
  - discriminate.
  - discriminate.
Defined.

Lemma poll_gather (c : Context) :
  poll c = Ret true ->
  (forall obj, object c = Some obj -> mode obj = EDIT -> edit_object c = Some obj) ->
  exists p, gather_points c = Ret p /\
            (List.length p = 3%nat \/ List.length p = 4%nat).
Proof.
  unfold poll, gather_points, type. intros Hpoll He.
  destruct (object c) as [obj | ]; [ | discriminate ].
  specialize (He obj eq_refl).
  destruct (mode obj) eqn:Hm; destruct (data obj) as [verts | | ] eqn:Hd;
    simpl in *; try rewrite (He eq_refl) in *; rewrite ?Hm, ?Hd in *; simpl in *;
    try discriminate.
  all: try match type of Hpoll with
           | context [four_or_three ?l] =>
             destruct (four_or_three l) eqn:F; simpl in Hpoll; try discriminate
           end.
  all: rewrite ?Hm, ?Hd; simpl.
  all: eexists; (split; [ reflexivity | ]); rewrite length_map;
    apply four_or_three_length, F.
Qed.

(** X7: [poll] guards [execute].  When [poll] has answered [True] (and, in
    edit mode, the edit object is the active object), [execute] gathers 3
    or 4 points without an error, and the local [circumcenter] is bound
    whenever the circumcenter functions return: the run cannot end in the
    [UnboundLocalError] of line 159. *)
Theorem poll_guards_execute (w : World) :
  poll (context w) = Ret true ->
  (forall obj, object (context w) = Some obj -> mode obj = EDIT ->
               edit_object (context w) = Some obj) ->
  exists p,
    gather_points (context w) = Ret p /\
    (List.length p = 3%nat \/ List.length p = 4%nat) /\
    forall cc3 cc4 w', fst (solve_with cc3 cc4 p w') <> Ret None.
Proof.
  intros Hpoll He.
  destruct (poll_gather _ Hpoll He) as (p & Hp & L).
  exists p. split; [ exact Hp | ]. split; [ exact L | ].
  intros cc3 cc4 w'.
  destruct p as [ | p0 [ | p1 [ | p2 [ | p3 [ | p4 p ] ] ] ] ];
    try (destruct L as [L | L]; discriminate L).
  - rewrite solve_with_three. destruct (cc3 p0 p1 p2); discriminate.
  - rewrite solve_with_four.
    destruct (cc4 p0 p1 p2 p3) as [[c | ] | e]; try discriminate.
    destruct (cc3 p0 p1 p2) as [[c | ] | e]; discriminate.
Qed.

Lemma poll_guards_execute_witness :
  exists p,
    gather_points (context mesh_edit_scene) = Ret p /\
    (List.length p = 3%nat \/ List.length p = 4%nat) /\
    forall cc3 cc4 w', fst (solve_with cc3 cc4 p w') <> Ret None.
Proof.
  apply (poll_guards_execute mesh_edit_scene).
  - reflexivity.
  - intros obj H _. simpl in H. rewrite <- H. reflexivity.
Defined.

(** X5: when the circumcenter function answers [None] on the three
    gathered points, the run reports the one ERROR message and returns
    CANCELLED, and the scene stays as it was. *)
Theorem execute_cancels_on_None
        (cc3 : Vector -> Vector -> Vector -> result (option Vector))
        (cc4 : Vector -> Vector -> Vector -> Vector -> result (option Vector))
        (w : World) (p1 p2 p3 : Vector) :
  gather_points (context w) = Ret [p1; p2; p3] ->
  cc3 p1 p2 p3 = Ret None ->
  execute_with cc3 cc4 w =
  (Ret CANCELLED,
   {| context := context w;
      log := log w ++ [{| level := ERROR; message := no_circumcenter_error |}] |}).
Proof.
  intros Hp H.
  rewrite (execute_with_after_solve cc3 cc4 w _ Hp), solve_with_three, H.
  reflexivity.
Qed.

Lemma execute_cancels_on_None_witness :
  execute_with answers_None calculate_circumcenter_4d tiny_triangle_scene =
  (Ret CANCELLED,
   {| context := context tiny_triangle_scene;
      log := log tiny_triangle_scene ++
             [{| level := ERROR; message := no_circumcenter_error |}] |}).
Proof.
  apply (execute_cancels_on_None answers_None calculate_circumcenter_4d _
           (Vec 0 0 0) (Vec (1 # 1099511627776) 0 0) (Vec 0 (1 # 1099511627776) 0));
    reflexivity.
Defined.

(** X9: when the circumcenter function returns a point on the three
    gathered points, the run finishes: the cursor is moved to that point,
    the rest of the scene is kept, and one INFO message per point is
    reported, in the order of the points. *)
Theorem execute_three_points
        (cc3 : Vector -> Vector -> Vector -> result (option Vector))
        (cc4 : Vector -> Vector -> Vector -> Vector -> result (option Vector))
        (w : World) (p1 p2 p3 c : Vector) :
  gather_points (context w) = Ret [p1; p2; p3] ->
  cc3 p1 p2 p3 = Ret (Some c) ->
  execute_with cc3 cc4 w =
  (Ret FINISHED,
   {| context := with_cursor (context w) c;
      log := log w ++
             [ {| level := INFO; message := Distance 0 (vsub c p1) |};
               {| level := INFO; message := Distance 1 (vsub c p2) |};
               {| level := INFO; message := Distance 2 (vsub c p3) |} ] |}).
Proof.
  intros Hp H.
  rewrite (execute_with_after_solve cc3 cc4 w _ Hp), solve_with_three, H.
  reflexivity.
Qed.

Lemma execute_three_points_witness :
  execute_with calculate_circumcenter_3d calculate_circumcenter_4d
               (object_mode_scene [Vec 0 0 0; Vec 2 0 0; Vec 0 2 0]) =
  (Ret FINISHED,
   {| context :=
        with_cursor (context (object_mode_scene [Vec 0 0 0; Vec 2 0 0; Vec 0 2 0]))
                    (center_3d (Vec 0 0 0) (Vec 2 0 0) (Vec 0 2 0));
      log := log (object_mode_scene [Vec 0 0 0; Vec 2 0 0; Vec 0 2 0]) ++
             [ {| level := INFO;
                  message := Distance 0 (vsub (center_3d (Vec 0 0 0) (Vec 2 0 0) (Vec 0 2 0))
                                              (Vec 0 0 0)) |};
               {| level := INFO;
                  message := Distance 1 (vsub (center_3d (Vec 0 0 0) (Vec 2 0 0) (Vec 0 2 0))
                                              (Vec 2 0 0)) |};
               {| level := INFO;
                  message := Distance 2 (vsub (center_3d (Vec 0 0 0) (Vec 2 0 0) (Vec 0 2 0))
                                              (Vec 0 2 0)) |} ] |}).
Proof.
  apply (execute_three_points calculate_circumcenter_3d calculate_circumcenter_4d _
           (Vec 0 0 0) (Vec 2 0 0) (Vec 0 2 0)).
  - reflexivity.
  - vm_compute. reflexivity.
Defined.

(** X10: when the four point function returns a point on the four gathered
    points, the run finishes without a warning: the cursor is moved to
    that point and the only reports are the four INFO messages. *)
Theorem execute_four_points
        (cc3 : Vector -> Vector -> Vector -> result (option Vector))
        (cc4 : Vector -> Vector -> Vector -> Vector -> result (option Vector))
        (w : World) (A B C D c : Vector) :
  gather_points (context w) = Ret [A; B; C; D] ->
  cc4 A B C D = Ret (Some c) ->
  execute_with cc3 cc4 w =
  (Ret FINISHED,
   {| context := with_cursor (context w) c;
      log := log w ++
             [ {| level := INFO; message := Distance 0 (vsub c A) |};
               {| level := INFO; message := Distance 1 (vsub c B) |};
               {| level := INFO; message := Distance 2 (vsub c C) |};
               {| level := INFO; message := Distance 3 (vsub c D) |} ] |}).
Proof.
  intros Hp H.
  rewrite (execute_with_after_solve cc3 cc4 w _ Hp), solve_with_four, H.
  reflexivity.
Qed.

Lemma execute_four_points_witness :
  exists c,
    c =v= Vec 1 1 1 /\
    execute_with calculate_circumcenter_3d calculate_circumcenter_4d
                 (object_mode_scene [Vec 0 0 0; Vec 2 0 0; Vec 0 2 0; Vec 0 0 2]) =
    (Ret FINISHED,
     {| context :=
          with_cursor
            (context (object_mode_scene [Vec 0 0 0; Vec 2 0 0; Vec 0 2 0; Vec 0 0 2])) c;
        log := log (object_mode_scene [Vec 0 0 0; Vec 2 0 0; Vec 0 2 0; Vec 0 0 2]) ++
               [ {| level := INFO; message := Distance 0 (vsub c (Vec 0 0 0)) |};
                 {| level := INFO; message := Distance 1 (vsub c (Vec 2 0 0)) |};
                 {| level := INFO; message := Distance 2 (vsub c (Vec 0 2 0)) |};
                 {| level := INFO; message := Distance 3 (vsub c (Vec 0 0 2)) |} ] |}).
Proof.
  eexists. split; [ | apply (execute_four_points calculate_circumcenter_3d
                               calculate_circumcenter_4d _
                               (Vec 0 0 0) (Vec 2 0 0) (Vec 0 2 0) (Vec 0 0 2));
                      [ reflexivity | vm_compute; reflexivity ] ].
  repeat split; reflexivity.
Defined.

(** X15: an exception raised by the circumcenter function on the three
    gathered points passes through [execute]: the run neither finishes nor
    cancels, and the cursor and the reports stay as they were. *)
Theorem execute_passes_exception
        (cc3 : Vector -> Vector -> Vector -> result (option Vector))
        (cc4 : Vector -> Vector -> Vector -> Vector -> result (option Vector))
        (w : World) (p1 p2 p3 : Vector) (e : exn) :
  gather_points (context w) = Ret [p1; p2; p3] ->
  cc3 p1 p2 p3 = Raise e ->
  execute_with cc3 cc4 w = (Raise e, w).
Proof.
  intros Hp H.
  rewrite (execute_with_after_solve cc3 cc4 w _ Hp), solve_with_three, H.
  reflexivity.
Qed.

Lemma execute_passes_exception_witness :
  execute_with calculate_circumcenter_3d calculate_circumcenter_4d
               (object_mode_scene [Vec 0 0 0; Vec 1 1 1; Vec 3 3 3]) =
  (Raise NameError, object_mode_scene [Vec 0 0 0; Vec 1 1 1; Vec 3 3 3]).
Proof.
  apply (execute_passes_exception calculate_circumcenter_3d calculate_circumcenter_4d _
           (Vec 0 0 0) (Vec 1 1 1) (Vec 3 3 3)); reflexivity.
Defined.

End CircumcenterRuns.

(** ** The orient operator, as a whole *)

Section OrientRuns.
Import LookAtCursorOperator Orient.

Variable track_raises : Direction -> Axis -> Axis -> bool.
Variable self : Props.

Lemma same_but_rotation_refl (o : Object) : same_but_rotation o o.
Proof. repeat split. Qed.

Lemma orient_keeps_objects (cursor : Vector) (objs : list Object) :
  Forall2 same_but_rotation objs
          (snd (orient_until_failure track_raises self cursor objs)).
Proof.
  induction objs as [ | o rest IH ]; simpl; [ constructor | ].
  destruct (fails track_raises self cursor o); simpl.
  - constructor; [ apply same_but_rotation_refl | ].
    clear IH. induction rest; constructor; auto using same_but_rotation_refl.
  - constructor; [ repeat split | exact IH ].
Qed.

(** X11: a run of the orient operator, finished or cancelled, leaves the
    cursor where it was and keeps the selection object by object: the same
    number of objects in the same order, each with its data, mode, world
    matrix and location; rotations are all it writes. *)
Theorem orient_writes_rotations_only (w : World) :
  cursor_location (context (snd (execute track_raises self w))) =
  cursor_location (context w) /\
  Forall2 same_but_rotation
          (selected_objects (context w))
          (selected_objects (context (snd (execute track_raises self w)))).
Proof.
  rewrite execute_spec. simpl. split; [ reflexivity | ].
  apply orient_keeps_objects.
Qed.

Lemma orient_again (cursor : Vector) (objs : list Object) :
  orient_until_failure track_raises self cursor
    (snd (orient_until_failure track_raises self cursor objs)) =
  orient_until_failure track_raises self cursor objs.
Proof.
  induction objs as [ | o rest IH ]; simpl; [ reflexivity | ].
  destruct (fails track_raises self cursor o) eqn:F; simpl.
  - rewrite F. reflexivity.
  - change (fails track_raises self cursor (oriented self cursor o))
      with (fails track_raises self cursor o).
    rewrite F, IH. reflexivity.
Qed.

(** X12: running the operator again on the scene it left changes nothing:
    the second run ends with the same status and leaves every rotation as
    the first run set it, since a rotation is computed from the cursor and
    the object's location alone. *)
Theorem orient_idempotent (w : World) :
  fst (execute track_raises self (snd (execute track_raises self w))) =
  fst (execute track_raises self w) /\
  context (snd (execute track_raises self (snd (execute track_raises self w)))) =
  context (snd (execute track_raises self w)).
Proof.
  rewrite (execute_spec track_raises self w). simpl.
  rewrite execute_spec. simpl. rewrite orient_again. split; reflexivity.
Qed.

(** X13: no exception leaves the orient operator: every run returns a
    status.  A FINISHED run reports nothing; a CANCELLED run reports the
    one ERROR message and nothing else. *)
Theorem orient_status_and_reports (w : World) :
  exists s,
    fst (execute track_raises self w) = Ret s /\
    log (snd (execute track_raises self w)) =
    log w ++ match s with
             | FINISHED => []
             | CANCELLED => [{| level := ERROR; message := same_location_error |}]
             end.
Proof.
  rewrite execute_spec. simpl. eexists. split; reflexivity.
Qed.

(** X14: where [poll] answers [False], on an empty selection, [execute]
    would still finish, and leave the scene and the reports untouched. *)
Theorem orient_empty_selection (w : World) :
  poll (context w) = false ->
  execute track_raises self w = (Ret FINISHED, w).
Proof.
  unfold poll. intros H. rewrite execute_spec.
  destruct w as [c lg]. destruct c as [o eo objs pb b cur]. simpl in *.
  destruct objs; [ | discriminate ].
  simpl. rewrite app_nil_r. reflexivity.
Qed.

End OrientRuns.

Lemma orient_empty_selection_witness :
  LookAtCursorOperator.execute LookAtCursorOperator.never_raises default_props
                               (object_mode_scene []) =
  (Ret FINISHED, object_mode_scene []).
Proof.
  apply orient_empty_selection. reflexivity.
Defined.
